(** * PS3000a low-level binding: timebase conversion and buffer registration

  A shallow embedding of [picoscope/ps3000a.py].

  - Python [float] values are idealised as exact rationals ([Q]): every
    statement below is about the arithmetic the source writes down, not
    about IEEE-754 rounding.
  - Python exceptions are values of [Py.exn]; a call either returns
    ([Py.Ok]) or raises ([Py.Raise]).
  - The vendor library behind [self.lib] is an oracle answering each call
    from the history of calls made so far; the methods that talk to it run
    in a state monad over that history. *)

From Stdlib Require Import ZArith QArith Qround Qpower Qminmax Lia List String Bool.
Import ListNotations.

(* ================================================================= *)
(** ** Python values, exceptions and results *)

Module Py.

(** The values a status variable [m] can hold in this file: the [int]
    returned by a foreign function, or [None] (a method without a
    [return] statement). *)
Inductive value : Type :=
| PyNone
| PyInt (z : Z).

Inductive exn : Type :=
| ValueError (msg : string)
| NameError (name : string)
| AttributeError (attr : string)
| TypeError (msg : string)
| UnicodeDecodeError
| DriverError (status : value).

Inductive result (A : Type) : Type :=
| Ok (a : A)
| Raise (e : exn).
Arguments Ok {A} a.
Arguments Raise {A} e.

Definition bind {A B : Type} (r : result A) (k : A -> result B) : result B :=
  match r with
  | Ok a => k a
  | Raise e => Raise e
  end.

Definition is_ValueError {A : Type} (r : result A) : bool :=
  match r with
  | Raise (ValueError _) => true
  | _ => false
  end.

(** [range(n)] for an integer [n]: [0, 1, ..., n-1], empty when [n <= 0]. *)
Definition range (n : Z) : list Z :=
  List.map Z.of_nat (List.seq 0 (Z.to_nat n)).

End Py.

(* ================================================================= *)
(** ** ctypes fixed-width integers *)

Module Ctypes.
Local Open Scope Z_scope.

(** [c_int16(z).value]: two's-complement wrap to 16 bits. *)
Definition c_int16 (z : Z) : Z := (z + 2 ^ 15) mod 2 ^ 16 - 2 ^ 15.
(** [c_int32(z).value]; [c_enum] is an alias of [c_int32]. *)
Definition c_int32 (z : Z) : Z := (z + 2 ^ 31) mod 2 ^ 32 - 2 ^ 31.
Definition c_enum (z : Z) : Z := c_int32 z.
(** [c_uint32(z).value]. *)
Definition c_uint32 (z : Z) : Z := z mod 2 ^ 32.

End Ctypes.

(* ================================================================= *)
(** ** Timebase conversion *)

Module Timebase.
Import Py.
Local Open Scope Q_scope.

(** [math.floor(math.log(x, 2))] in exact arithmetic.  [math.log] raises
    [ValueError] ("math domain error") unless [0 < x].  For [1 <= x] the
    floor of the logarithm is the integer logarithm of [floor x]; for
    [0 < x < 1] it is minus the rounded-up integer logarithm of
    [ceil (1/x)]. *)
Definition math_floor_log2 (x : Q) : result Z :=
  if Qlt_le_dec 0 x then
    if Qlt_le_dec x 1
    then Ok (- Z.log2_up (Qceiling (/ x)))%Z
    else Ok (Z.log2 (Qfloor x))
  else Raise (ValueError "math domain error").

(** [maxSampleTime = (((2 ** 32 - 1) - 2) / 125000000)] *)
Definition maxSampleTime : Q :=
  inject_Z ((2 ^ 32 - 1) - 2) / 125000000.

(** [PS3000a.getTimeBaseNum]; the final [int(st)] is the identity on the
    integer delivered by [math.floor]. *)
Definition getTimeBaseNum (sampleTimeS : Q) : result Z :=
  if Qlt_le_dec sampleTimeS 8.0e-9 then
    bind (math_floor_log2 (sampleTimeS * 1e9)) (fun st =>
    Ok (Z.max st 0))
  else
    let sampleTimeS :=
      if Qlt_le_dec maxSampleTime sampleTimeS then maxSampleTime
      else sampleTimeS in
    Ok (Qfloor (sampleTimeS * 125000000 + 2)).

(** [PS3000a.getTimestepFromTimebase] *)
Definition getTimestepFromTimebase (timebase : Z) : Q :=
  if (timebase <? 3)%Z
  then 2 ^ timebase / 1.0e9
  else (inject_Z timebase - 2.0) / 125000000.

(** [k] is the floor of the base-2 logarithm of [x]: [2^k <= x < 2^(k+1)]. *)
Definition is_floor_log2 (x : Q) (k : Z) : Prop :=
  2 ^ k <= x /\ x < 2 ^ (k + 1).

End Timebase.


(* ================================================================= *)
(** ** The vendor library seen through [self.lib] *)

Module Lib.
Local Open Scope Z_scope.

(** One constructor per entry point this development reaches.  Arguments
    are the by-value ones the source passes; [byref] output arguments are
    answered in the [response].  A row of the caller's sample array stands
    for the pointer [data[i, :].ctypes.data_as(POINTER(c_int16))]. *)
Inductive call : Type :=
| ps3000aGetMaxSegments (handle : Z)
| ps3000aSetDataBuffer
    (handle channel dataRow numSamples segmentIndex downSampleMode : Z)
| ps3000aGetUnitInfo (handle stringLength info : Z)
| ps3000_get_unit_info (handle stringLength info : Z).

(** The symbol looked up on [self.lib]. *)
Definition entry_point (c : call) : string :=
  match c with
  | ps3000aGetMaxSegments _ => "ps3000aGetMaxSegments"
  | ps3000aSetDataBuffer _ _ _ _ _ _ => "ps3000aSetDataBuffer"
  | ps3000aGetUnitInfo _ _ _ => "ps3000aGetUnitInfo"
  | ps3000_get_unit_info _ _ _ => "ps3000_get_unit_info"
  end.

Definition is_SetDataBuffer (c : call) : bool :=
  match c with
  | ps3000aSetDataBuffer _ _ _ _ _ _ => true
  | _ => false
  end.

(** What a call hands back: the returned status, the integer written
    through a [byref] output, the bytes written into a string buffer. *)
Record response : Type := mkResponse {
  status : Z;
  out_value : Z;
  out_string : string
}.

(** The library answers a call knowing the calls made before it. *)
Definition driver : Type := list call -> call -> response.

End Lib.

(* ================================================================= *)
(** ** The PS3000a methods *)

Module PS3000a.
Import Py Ctypes Lib.
Local Open Scope Z_scope.

(** The attributes of [self] the methods below read. *)
Record instance : Type := mkInstance {
  handle : Z;
  maxSamples : Z
}.

(** A 2-D numpy array as far as the helper looks at it: its [shape]. *)
Record ndarray : Type := mkArray {
  shape0 : Z;
  shape1 : Z
}.

(** An argument [data] of [_lowLevelSetDataBuffer]: row [row] of the 2-D
    array, of length [len(data)]. *)
Record row_view : Type := mkRow {
  row : Z;
  row_len : Z
}.

(** [data[i, :]] *)
Definition get_row (data : ndarray) (i : Z) : row_view :=
  mkRow i (shape1 data).

(** What a module-level name of [ps3000a.py] is bound to. *)
Inductive pyobj : Type :=
| Feature
| PyModule
| CFunction
| CType
| Class
| Instance (self : instance).

(** The names bound at the top level of [ps3000a.py], in source order. *)
Definition module_globals : list (string * pyobj) :=
  [ ("division", Feature); ("absolute_import", Feature);
    ("print_function", Feature); ("unicode_literals", Feature);
    ("math", PyModule); ("platform", PyModule);
    ("byref", CFunction); ("POINTER", CFunction);
    ("create_string_buffer", CFunction);
    ("c_float", CType); ("c_int16", CType); ("c_int32", CType);
    ("c_uint16", CType); ("c_uint32", CType); ("c_void_p", CType);
    ("c_enum", CType);
    ("_PicoscopeBase", Class); ("PS3000a", Class) ]%string.

Fixpoint lookup (name : string) (env : list (string * pyobj)) : option pyobj :=
  match env with
  | [] => None
  | (n, o) :: rest => if String.eqb n name then Some o else lookup name rest
  end.

(** [s.value] of a string buffer of [len] bytes into which [written] was
    stored: the bytes before the first NUL. *)
Fixpoint until_nul (s : string) : string :=
  match s with
  | EmptyString => EmptyString
  | String c rest =>
      if Ascii.eqb c Ascii.zero then EmptyString
      else String c (until_nul rest)
  end.

Definition buffer_value (len : Z) (written : string) : string :=
  until_nul (substring 0 (Z.to_nat len) written).

(** Methods run over the history of library calls. *)
Definition M (A : Type) : Type := list call -> result A * list call.

Definition ret {A : Type} (a : A) : M A := fun tr => (Ok a, tr).

Definition raise {A : Type} (e : exn) : M A := fun tr => (Raise e, tr).

Definition mbind {A B : Type} (m : M A) (k : A -> M B) : M B :=
  fun tr =>
    match m tr with
    | (Ok a, tr') => k a tr'
    | (Raise e, tr') => (Raise e, tr')
    end.

Notation "x <- m ;; k" := (mbind m (fun x => k))
  (at level 61, m at next level, right associativity).
Notation "m ;;; k" := (mbind m (fun _ => k))
  (at level 61, right associativity).

Definition lift {A : Type} (r : result A) : M A := fun tr => (r, tr).

(** [for x in xs: body(x)] *)
Fixpoint for_each {A : Type} (xs : list A) (body : A -> M unit) : M unit :=
  match xs with
  | [] => ret tt
  | x :: rest => body x ;;; for_each rest body
  end.

(** Modelled from the spec: [_PicoscopeBase.checkResult], defined in
    [picoscope/picobase.py].  A status of zero is success; anything else is
    surfaced at once as a driver error carrying the raw status. *)
Definition checkResult (m : value) : M unit :=
  match m with
  | PyInt 0 => ret tt
  | _ => raise (DriverError m)
  end.

(** A global name is read from the module namespace; an unbound one raises
    [NameError] (no builtin is called [ps] either). *)
Definition load_global (name : string) : M pyobj :=
  match lookup name module_globals with
  | Some o => ret o
  | None => raise (NameError name)
  end.

Section WithLibrary.

Variable lib : driver.
(** [bytes.decode('utf-8')] *)
Variable utf8_decode : string -> result string.

(** [self.lib.<entry point>(...)] *)
Definition lib_call (c : call) : M response :=
  fun tr => (Ok (lib tr c), tr ++ [c]).

(** [PS3000a._lowLevelGetMaxSegments] *)
Definition _lowLevelGetMaxSegments (self : instance) : M Z :=
  r <- lib_call (ps3000aGetMaxSegments (c_int16 (handle self))) ;;
  checkResult (PyInt (status r)) ;;;
  ret (c_int16 (out_value r)).

(** [PS3000a._lowLevelSetDataBuffer]; it has no [return], so it hands back
    [None]. *)
Definition _lowLevelSetDataBuffer (self : instance)
    (channel : Z) (data : row_view) (downSampleMode segmentIndex : Z)
  : M value :=
  let dataPtr := row data in
  let numSamples := row_len data in
  r <- lib_call (ps3000aSetDataBuffer (c_int16 (handle self)) (c_enum channel)
                   dataPtr (c_int32 numSamples) (c_uint32 segmentIndex)
                   (c_enum downSampleMode)) ;;
  checkResult (PyInt (status r)) ;;;
  ret PyNone.

(** [o._lowLevelSetDataBuffer(channel, data, downSampleMode, segmentIndex)]
    for whatever [o] a name evaluated to. *)
Definition call_lowLevelSetDataBuffer (o : pyobj)
    (channel : Z) (data : row_view) (downSampleMode segmentIndex : Z)
  : M value :=
  match o with
  | Instance self =>
      _lowLevelSetDataBuffer self channel data downSampleMode segmentIndex
  | Class => raise (TypeError "missing argument")
  | _ => raise (AttributeError "_lowLevelSetDataBuffer")
  end.

(** [PS3000a._lowLevelSetMultipleDataBuffers].  The loop body calls
    [ps._lowLevelSetDataBuffer], where [ps] is a global name. *)
Definition _lowLevelSetMultipleDataBuffers (self : instance)
    (channel : Z) (data : ndarray) (downSampleMode : Z) : M unit :=
  max_segments <- _lowLevelGetMaxSegments self ;;
  if shape0 data <? max_segments then
    raise (ValueError
      "data array has fewer rows than current number of memory segments")
  else if shape1 data <? maxSamples self then
    raise (ValueError "data array has fewer columns than maxSamples")
  else
    for_each (range max_segments) (fun i =>
      ps <- load_global "ps" ;;
      m <- call_lowLevelSetDataBuffer ps channel (get_row data i)
             downSampleMode i ;;
      checkResult m).

(** [PS3000a._lowLevelGetUnitInfo] *)
Definition _lowLevelGetUnitInfo (self : instance) (info : Z) : M string :=
  let len_s := 256 in
  r <- lib_call (ps3000aGetUnitInfo (c_int16 (handle self)) (c_int16 len_s)
                   (c_enum info)) ;;
  checkResult (PyInt (status r)) ;;;
  let requiredSize := c_int16 (out_value r) in
  s_value <-
    (if len_s <? requiredSize then
       let len_s := requiredSize + 1 in
       r <- lib_call (ps3000_get_unit_info (c_int16 (handle self))
                        (c_int16 len_s) (c_enum info)) ;;
       checkResult (PyInt (status r)) ;;;
       ret (buffer_value len_s (out_string r))
     else
       ret (buffer_value len_s (out_string r))) ;;
  lift (utf8_decode s_value).

End WithLibrary.

(** The registration calls the contract of the helper asks for: one per
    segment index below [max_segments], in increasing order, row [i] for
    segment [i]. *)
Definition expected_registrations (self : instance)
    (channel : Z) (data : ndarray) (downSampleMode max_segments : Z)
  : list call :=
  List.map (fun i =>
      ps3000aSetDataBuffer (c_int16 (handle self)) (c_enum channel)
        i (c_int32 (shape1 data)) (c_uint32 i) (c_enum downSampleMode))
    (range max_segments).

(** The buffer registrations among a list of calls. *)
Definition registrations (tr : list call) : list call :=
  List.filter is_SetDataBuffer tr.

End PS3000a.

(* ================================================================= *)
(** ** Concrete libraries and inputs used in the examples below *)

Module Examples.
Import Py Lib PS3000a.
Local Open Scope Z_scope.
Local Open Scope string_scope.

(** A unit with two memory segments whose calls all succeed. *)
Definition two_segment_lib : driver :=
  fun _ c =>
    match c with
    | ps3000aGetMaxSegments _ => mkResponse 0 2 ""
    | _ => mkResponse 0 0 ""
    end.

(** A unit with four memory segments. *)
Definition four_segment_lib : driver :=
  fun _ c =>
    match c with
    | ps3000aGetMaxSegments _ => mkResponse 0 4 ""
    | _ => mkResponse 0 0 ""
    end.

(** A unit whose info string needs 300 bytes: the first query reports the
    size, any later query delivers the string. *)
Definition long_info_lib : driver :=
  fun history c =>
    match history with
    | [] => mkResponse 0 300 ""
    | _ => mkResponse 0 300 "PS3000A"
    end.

Definition scope : instance := mkInstance 1 8.

Definition buffer_2x8 : ndarray := mkArray 2 8.

End Examples.

(* ================================================================= *)
(** ** Further entry points of the vendor library *)

Module Lib2.
Local Open Scope Z_scope.

(** The entry points reached by the methods of [Marshal] below, with their
    by-value arguments in the order the source passes them.  [byref]
    outputs are answered in the [response]; pointers into arrays of the
    caller are left out. *)
Inductive call : Type :=
| ps3000aOpenUnit (serial : string)
| ps3000aPingUnit (handle : Z)
| ps3000aRunBlock
    (handle noOfPreTriggerSamples noOfPostTriggerSamples timebase
       oversample segmentIndex : Z)
| ps3000aGetValuesBulk
    (handle noOfSamples fromSegmentIndex toSegmentIndex downSampleRatio
       downSampleRatioMode : Z).

(** The returned status and the integer written through a [byref] output. *)
Record response : Type := mkResponse {
  status : Z;
  out_value : Z
}.

Definition driver : Type := list call -> call -> response.

End Lib2.

(* ================================================================= *)
(** ** More PS3000a methods *)

Module Marshal.
Import Py Ctypes Lib2.
Import PS3000a(instance, mkInstance, handle, maxSamples).
Local Open Scope Z_scope.

(** [c_uint16(z).value] *)
Definition c_uint16 (z : Z) : Z := z mod 2 ^ 16.

(** Methods run over the history of library calls. *)
Definition M (A : Type) : Type := list call -> result A * list call.

Definition ret {A : Type} (a : A) : M A := fun tr => (Ok a, tr).

Definition raise {A : Type} (e : exn) : M A := fun tr => (Raise e, tr).

Definition mbind {A B : Type} (m : M A) (k : A -> M B) : M B :=
  fun tr =>
    match m tr with
    | (Ok a, tr') => k a tr'
    | (Raise e, tr') => (Raise e, tr')
    end.

Notation "x <- m ;; k" := (mbind m (fun x => k))
  (at level 61, m at next level, right associativity).
Notation "m ;;; k" := (mbind m (fun _ => k))
  (at level 61, right associativity).

(** Modelled from the spec: [_PicoscopeBase.checkResult], defined in
    [picoscope/picobase.py]; the same check as [PS3000a.checkResult], over
    the calls of [Lib2]. *)
Definition checkResult (m : value) : M unit :=
  match m with
  | PyInt 0 => ret tt
  | _ => raise (DriverError m)
  end.

(** [create_string_buffer(init)]: the bytes of [init] and a closing NUL. *)
Definition create_string_buffer (init : string) : string :=
  (init ++ String Ascii.zero EmptyString)%string.

(** [byref(obj)]: [obj] has to be a ctypes instance; [None] is not. *)
Definition byref {A : Type} (obj : option A) : M A :=
  match obj with
  | Some o => ret o
  | None => raise (TypeError "byref() argument must be a ctypes instance")
  end.

Section WithLibrary.

Variable lib : driver.

(** [self.lib.<entry point>(...)] *)
Definition lib_call (c : call) : M response :=
  fun tr => (Ok (lib tr c), tr ++ [c]).

(** [PS3000a._lowLevelOpenUnit]; the assignment to [self.handle] is the
    instance handed back. *)
Definition _lowLevelOpenUnit (self : instance) (sn : option string)
  : M instance :=
  let serialNullTermStr :=
    match sn with
    | Some s => Some (create_string_buffer s)
    | None => None
    end in
  serial <- byref serialNullTermStr ;;
  r <- lib_call (ps3000aOpenUnit serial) ;;
  checkResult (PyInt (status r)) ;;;
  ret (mkInstance (c_int16 (out_value r)) (maxSamples self)).

(** [PS3000a._lowlevelPingUnit] *)
Definition _lowlevelPingUnit (self : instance) : M bool :=
  r <- lib_call (ps3000aPingUnit (c_int16 (handle self))) ;;
  let m := status r in
  checkResult (PyInt m) ;;;
  if m =? 0 then ret true else ret false.

(** [PS3000a._lowLevelRunBlock] *)
Definition _lowLevelRunBlock (self : instance)
    (numPreTrigSamples numPostTrigSamples timebase oversample
       segmentIndex : Z) : M Z :=
  r <- lib_call (ps3000aRunBlock (c_int16 (handle self))
                   (c_uint32 numPreTrigSamples) (c_uint32 numPostTrigSamples)
                   (c_uint32 timebase) (c_int16 oversample)
                   (c_uint16 segmentIndex)) ;;
  checkResult (PyInt (status r)) ;;;
  ret (c_int32 (out_value r)).

(** [PS3000a._lowLevelGetValuesBulk]; [overflow] is the caller's array,
    handed back as the same object. *)
Definition _lowLevelGetValuesBulk {A : Type} (self : instance)
    (numSamples fromSegment toSegment downSampleRatio downSampleMode : Z)
    (overflow : A) : M (A * Z) :=
  r <- lib_call (ps3000aGetValuesBulk (c_int16 (handle self))
                   (c_int16 numSamples) (c_int16 fromSegment)
                   (c_int16 toSegment) (c_int32 downSampleRatio)
                   (c_int16 downSampleMode)) ;;
  checkResult (PyInt (status r)) ;;;
  ret (overflow, numSamples).

End WithLibrary.

End Marshal.

(* ================================================================= *)
(** ** Instrument constants *)

Module Constants.
Local Open Scope Q_scope.

Record channel_range : Type := mkRange {
  rangeV : Q;
  apivalue : Z;
  rangeStr : string
}.

(** [PS3000a.CHANNEL_RANGE] *)
Definition CHANNEL_RANGE : list channel_range :=
  [ mkRange 10e-3 0 "10 mV";
    mkRange 20e-3 1 "20 mV";
    mkRange 50e-3 2 "50 mV";
    mkRange 100e-3 3 "100 mV";
    mkRange 200e-3 4 "200 mV";
    mkRange 500e-3 5 "500 mV";
    mkRange 1.0 6 "1 V";
    mkRange 2.0 7 "2 V";
    mkRange 5.0 8 "5 V";
    mkRange 10.0 9 "10 V";
    mkRange 20.0 10 "20 V";
    mkRange 50.0 11 "50 V" ].

End Constants.

(* ================================================================= *)
(** ** More concrete libraries *)

Module Examples2.
Import Py.
Local Open Scope Z_scope.
Local Open Scope string_scope.

(** A library whose calls all fail with status 5. *)
Definition failing_lib : Lib.driver :=
  fun _ _ => Lib.mkResponse 5 0 "".

(** A unit reporting a required info size of 32767 bytes. *)
Definition huge_info_lib : Lib.driver :=
  fun _ _ => Lib.mkResponse 0 32767 "".

(** A unit whose further calls all succeed, writing 7 through outputs. *)
Definition ready_lib : Lib2.driver :=
  fun _ _ => Lib2.mkResponse 0 7.

End Examples2.

(* ================================================================= *)
(** ** Tactics *)

(** Equations and inequalities between closed rationals, by evaluation. *)
Ltac closed_Qeq := unfold Qeq; vm_compute; reflexivity.

Ltac closed_Qle := unfold Qle; vm_compute; let H := fresh in intro H; discriminate H.
Ltac closed_Qlt := unfold Qlt; vm_compute; reflexivity.

(* ================================================================= *)
(** ** Facts about the timebase conversion *)

Module TimebaseFacts.
Import Py Timebase.
Local Open Scope Q_scope.

Lemma pow2_inject (k : Z) : (0 <= k)%Z -> inject_Z (2 ^ k) == 2 ^ k.
Proof. intros Hk. exact (Zpower_Qpower 2 k Hk). Qed.

Lemma pow2_pos (k : Z) : 0 < 2 ^ k.
Proof. apply Qpower_0_lt. reflexivity. Qed.

(** The integer logarithm of the floor is the floor of the logarithm. *)
Lemma floor_log2_ge1 (x : Q) :
  1 <= x -> is_floor_log2 x (Z.log2 (Qfloor x)).
Proof.
  intros Hx.
  assert (Hf : (1 <= Qfloor x)%Z).
  { rewrite <- (Qfloor_Z 1). apply Qfloor_resp_le. exact Hx. }
  destruct (Z.log2_spec (Qfloor x)) as [Hlo Hhi]; [lia|].
  pose proof (Z.log2_nonneg (Qfloor x)) as Hk.
  split.
  - rewrite <- pow2_inject by assumption.
    apply Qle_trans with (inject_Z (Qfloor x)).
    + rewrite <- Zle_Qle. exact Hlo.
    + apply Qfloor_le.
  - rewrite <- pow2_inject by lia.
    apply Qlt_le_trans with (inject_Z (Qfloor x + 1)).
    + apply Qlt_floor.
    + rewrite <- Zle_Qle. lia.
Qed.

Lemma floor_log2_lt1 (x : Q) :
  0 < x -> x < 1 -> is_floor_log2 x (- Z.log2_up (Qceiling (/ x))).
Proof.
  intros H0 H1.
  assert (Hx0 : ~ x == 0) by (intros E; rewrite E in H0; discriminate H0).
  assert (Hinv : 1 < / x).
  { apply Qlt_shift_inv_l; [assumption | rewrite Qmult_1_l; assumption]. }
  set (c := Qceiling (/ x)). set (m := Z.log2_up c).
  assert (Hc : (1 < c)%Z).
  { rewrite Zlt_Qlt. apply Qlt_le_trans with (/ x); [exact Hinv|].
    apply Qle_ceiling. }
  destruct (Z.log2_up_spec c Hc) as [Hlo Hhi]. fold m in Hlo, Hhi.
  assert (Hm : (0 < m)%Z) by (apply Z.log2_up_pos; exact Hc).
  split.
  - rewrite Qpower_opp. apply Qle_shift_inv_r; [apply pow2_pos|].
    rewrite <- (Qmult_inv_r x Hx0).
    apply Qmult_le_l; [assumption|].
    apply Qle_trans with (inject_Z c); [apply Qle_ceiling|].
    rewrite <- pow2_inject by lia. rewrite <- Zle_Qle. exact Hhi.
  - replace (- m + 1)%Z with (- (m - 1))%Z by lia.
    rewrite Qpower_opp. apply Qlt_shift_inv_l; [apply pow2_pos|].
    rewrite <- (Qmult_inv_r x Hx0).
    apply Qmult_lt_l; [assumption|].
    apply Qle_lt_trans with (inject_Z (c - 1)); [|apply Qceiling_lt].
    rewrite <- pow2_inject by lia. rewrite <- Zle_Qle.
    replace (m - 1)%Z with (Z.pred m) by lia. lia.
Qed.

(** On positive arguments [math_floor_log2] returns, and what it returns is
    the floor of the base-2 logarithm. *)
Lemma math_floor_log2_spec (x : Q) :
  0 < x -> exists k, math_floor_log2 x = Ok k /\ is_floor_log2 x k.
Proof.
  intros Hx. unfold math_floor_log2.
  destruct (Qlt_le_dec 0 x) as [_|Hn].
  - destruct (Qlt_le_dec x 1) as [H1|H1].
    + eexists; split; [reflexivity|]. apply floor_log2_lt1; assumption.
    + eexists; split; [reflexivity|]. apply floor_log2_ge1; assumption.
  - exfalso. apply (Qlt_irrefl 0). apply Qlt_le_trans with x; assumption.
Qed.

Lemma math_floor_log2_domain (x : Q) :
  x <= 0 -> math_floor_log2 x = Raise (ValueError "math domain error").
Proof.
  intros Hx. unfold math_floor_log2.
  destruct (Qlt_le_dec 0 x) as [Hp|_]; [|reflexivity].
  exfalso. apply (Qlt_irrefl 0). apply Qlt_le_trans with x; assumption.
Qed.

(** Floors of logarithms are ordered like their arguments. *)
Lemma is_floor_log2_mono (x y : Q) (j k : Z) :
  is_floor_log2 x j -> is_floor_log2 y k -> x <= y -> (j <= k)%Z.
Proof.
  intros [Hj _] [_ Hk] Hxy.
  assert (H : 2 ^ j < 2 ^ (k + 1)).
  { apply Qle_lt_trans with x; [assumption|].
    apply Qle_lt_trans with y; assumption. }
  apply Qpower_lt_compat_l_inv in H; [lia | reflexivity].
Qed.

Lemma is_floor_log2_unique (x : Q) (j k : Z) :
  is_floor_log2 x j -> is_floor_log2 x k -> j = k.
Proof.
  intros Hj Hk.
  pose proof (is_floor_log2_mono x x j k Hj Hk (Qle_refl x)).
  pose proof (is_floor_log2_mono x x k j Hk Hj (Qle_refl x)).
  lia.
Qed.

End TimebaseFacts.

Module TimebaseClaims.
Import Py Timebase TimebaseFacts.
Local Open Scope Q_scope.


Lemma Qlt_not_refl_via (x y : Q) : x < y -> y <= x -> False.
Proof. intros H1 H2. apply (Qlt_irrefl x). apply Qlt_le_trans with y; assumption. Qed.

Lemma getTimeBaseNum_below_8ns (s : Q) :
  s < 8.0e-9 ->
  getTimeBaseNum s =
  bind (math_floor_log2 (s * 1e9)) (fun st => Ok (Z.max st 0)).
Proof.
  intros Hs. unfold getTimeBaseNum.
  destruct (Qlt_le_dec s 8.0e-9) as [_|Hn]; [reflexivity|].
  exfalso. exact (Qlt_not_refl_via _ _ Hs Hn).
Qed.

Lemma getTimeBaseNum_from_8ns (s : Q) :
  8.0e-9 <= s ->
  getTimeBaseNum s = Ok (Qfloor (Qmin s maxSampleTime * 125000000 + 2)).
Proof.
  intros Hs. unfold getTimeBaseNum.
  destruct (Qlt_le_dec s 8.0e-9) as [Hn|_].
  { exfalso. exact (Qlt_not_refl_via _ _ Hn Hs). }
  f_equal. apply Qfloor_comp.
  destruct (Qlt_le_dec maxSampleTime s) as [Hc|Hc].
  - rewrite (Q.min_r s maxSampleTime) by (apply Qlt_le_weak; exact Hc).
    reflexivity.
  - rewrite (Q.min_l s maxSampleTime) by exact Hc. reflexivity.
Qed.

Lemma scale_pos (s : Q) : 0 < s -> 0 < s * 1e9.
Proof.
  intros Hs. rewrite <- (Qmult_0_l 1e9).
  apply Qmult_lt_compat_r; [reflexivity | exact Hs].
Qed.

(** C1: for a non-negative code, [getTimestepFromTimebase] is [2^code / 1e9]
    below 3 (1 ns, 2 ns and 4 ns for codes 0, 1 and 2) and
    [(code - 2) / 125000000] from 3 on. *)
Theorem getTimestepFromTimebase_two_regimes (code : Z) :
  (0 <= code)%Z ->
  ((code < 3)%Z ->
     getTimestepFromTimebase code == inject_Z (2 ^ code) / 1e9) /\
  ((3 <= code)%Z ->
     getTimestepFromTimebase code == inject_Z (code - 2) / 125000000) /\
  getTimestepFromTimebase 0 == 1e-9 /\
  getTimestepFromTimebase 1 == 2e-9 /\
  getTimestepFromTimebase 2 == 4e-9.
Proof.
  intros Hc. repeat split; try closed_Qeq.
  - intros Hlt. unfold getTimestepFromTimebase.
    apply Z.ltb_lt in Hlt. rewrite Hlt.
    rewrite pow2_inject by assumption.
    apply Qmult_comp; [reflexivity | closed_Qeq].
  - intros Hge. unfold getTimestepFromTimebase.
    apply Z.ltb_ge in Hge. rewrite Hge.
    unfold Z.sub. rewrite inject_Z_plus.
    apply Qmult_comp; [|closed_Qeq].
    apply Qplus_comp; [reflexivity | closed_Qeq].
Qed.

Lemma getTimestepFromTimebase_two_regimes_witness :
  getTimestepFromTimebase 5 == inject_Z (5 - 2) / 125000000.
Proof.
  apply (getTimestepFromTimebase_two_regimes 5); lia.
Defined.






(** C6, as amended: every positive request below 1 ns gets code 0 and the
    call returns. *)
Theorem getTimeBaseNum_sub_nanosecond (s : Q) :
  0 < s -> s < 1e-9 -> getTimeBaseNum s = Ok 0%Z.
Proof.
  intros H0 Hs.
  assert (H8 : s < 8.0e-9).
  { apply Qlt_trans with 1e-9; [exact Hs | closed_Qlt]. }
  rewrite (getTimeBaseNum_below_8ns s H8).
  assert (H1 : s * 1e9 < 1).
  { apply Qlt_le_trans with (1e-9 * 1e9); [|closed_Qle].
    apply Qmult_lt_compat_r; [closed_Qlt | exact Hs]. }
  unfold math_floor_log2.
  destruct (Qlt_le_dec 0 (s * 1e9)) as [_|Hn].
  - destruct (Qlt_le_dec (s * 1e9) 1) as [_|Hge].
    + simpl. f_equal.
      pose proof (Z.log2_up_nonneg (Qceiling (/ (s * 1e9)))). lia.
    + exfalso. exact (Qlt_not_refl_via _ _ H1 Hge).
  - exfalso. exact (Qlt_not_refl_via _ _ (scale_pos s H0) Hn).
Qed.

Lemma getTimeBaseNum_sub_nanosecond_witness :
  getTimeBaseNum 5e-10 = Ok 0%Z.
Proof.
  apply (getTimeBaseNum_sub_nanosecond 5e-10); closed_Qlt.
Defined.

(** C6 as stated fails at exactly zero: the request is in the range
    [0 <= s < 1e-9], yet the call raises instead of returning code 0. *)
Lemma getTimeBaseNum_zero_raises :
  0 <= 0 /\ 0 < 1e-9 /\
  getTimeBaseNum 0 = Raise (ValueError "math domain error") /\
  ~ (forall s, 0 <= s -> s < 1e-9 -> getTimeBaseNum s = Ok 0%Z).
Proof.
  split; [closed_Qle|]. split; [closed_Qlt|]. split; [reflexivity|].
  intros H. specialize (H 0). discriminate H; [closed_Qle | closed_Qlt].
Qed.



(** C8: the listed requests and the intervals their codes stand for:
    1 ns -> 0 -> 1 ns; 4 ns -> 2 -> 4 ns; 8 ns -> 3 -> 8 ns (slow-clock
    branch); 1 us -> 127 -> 1 us; 1 s -> 125000002 -> 1 s. *)
Theorem getTimeBaseNum_representative_values :
  (getTimeBaseNum 1e-9 = Ok 0%Z /\ getTimestepFromTimebase 0 == 1e-9) /\
  (getTimeBaseNum 4e-9 = Ok 2%Z /\ getTimestepFromTimebase 2 == 4e-9) /\
  (8.0e-9 <= 8e-9 /\
   getTimeBaseNum 8e-9 = Ok (Qfloor (8e-9 * 125e6 + 2)) /\
   getTimeBaseNum 8e-9 = Ok 3%Z /\
   getTimestepFromTimebase 3 == (3 - 2) / 125e6 /\
   getTimestepFromTimebase 3 == 8e-9) /\
  (getTimeBaseNum 1e-6 = Ok 127%Z /\ getTimestepFromTimebase 127 == 1e-6) /\
  (getTimeBaseNum 1.0 = Ok (Qfloor (1 * 125e6 + 2)) /\
   getTimeBaseNum 1.0 = Ok 125000002%Z /\
   getTimestepFromTimebase 125000002 == 1.0).
Proof.
  repeat split; try (vm_compute; reflexivity); try closed_Qeq.
  closed_Qle.
Qed.



End TimebaseClaims.

(* ================================================================= *)
(** ** Facts about the methods that talk to the library *)

Module DriverFacts.
Import Py Ctypes Lib PS3000a.
Local Open Scope Z_scope.

Lemma range_pos (n : Z) : 0 < n -> exists rest, range n = 0 :: rest.
Proof.
  intros Hn. unfold range.
  destruct (Z.to_nat n) as [|k] eqn:E; [lia|].
  simpl. eexists. reflexivity.
Qed.

Lemma range_nonpos (n : Z) : n <= 0 -> range n = [].
Proof.
  intros Hn. unfold range.
  replace (Z.to_nat n) with 0%nat by lia. reflexivity.
Qed.

Section WithLibrary.

Variable lib : driver.

(** The query for the number of segments: one call, then the status check. *)
Lemma lowLevelGetMaxSegments_run (self : instance) (tr : list call) :
  let c := ps3000aGetMaxSegments (c_int16 (handle self)) in
  _lowLevelGetMaxSegments lib self tr =
  ((if status (lib tr c) =? 0 then Ok (c_int16 (out_value (lib tr c)))
    else Raise (DriverError (PyInt (status (lib tr c))))),
   tr ++ [c]).
Proof.
  intros c. unfold _lowLevelGetMaxSegments, mbind, lib_call. fold c.
  destruct (status (lib tr c)) as [|p|p] eqn:E; reflexivity.
Qed.

(** The loop of [_lowLevelSetMultipleDataBuffers] stops at its first
    iteration: the name [ps] is unbound. *)
Lemma registration_loop_run (channel : Z) (data : ndarray)
    (downSampleMode n : Z) (tr : list call) :
  for_each (range n) (fun i =>
      ps <- load_global "ps" ;;
      m <- call_lowLevelSetDataBuffer lib ps channel (get_row data i)
             downSampleMode i ;;
      checkResult m) tr =
  ((if 0 <? n then Raise (NameError "ps") else Ok tt), tr).
Proof.
  destruct (Z.ltb_spec 0 n) as [Hn|Hn].
  - destruct (range_pos n Hn) as [rest ->]. reflexivity.
  - rewrite (range_nonpos n Hn). reflexivity.
Qed.

(** Every outcome of [_lowLevelSetMultipleDataBuffers]: the library is
    called once, for the number of segments. *)
Lemma lowLevelSetMultipleDataBuffers_run (self : instance) (channel : Z)
    (data : ndarray) (downSampleMode : Z) (tr : list call) :
  let c := ps3000aGetMaxSegments (c_int16 (handle self)) in
  let max_segments := c_int16 (out_value (lib tr c)) in
  _lowLevelSetMultipleDataBuffers lib self channel data downSampleMode tr =
  ((if status (lib tr c) =? 0 then
      if shape0 data <? max_segments then
        Raise (ValueError
          "data array has fewer rows than current number of memory segments")
      else if shape1 data <? maxSamples self then
        Raise (ValueError "data array has fewer columns than maxSamples")
      else if 0 <? max_segments then Raise (NameError "ps")
      else Ok tt
    else Raise (DriverError (PyInt (status (lib tr c))))),
   tr ++ [c]).
Proof.
  intros c max_segments.
  unfold _lowLevelSetMultipleDataBuffers.
  unfold mbind at 1. rewrite lowLevelGetMaxSegments_run. fold c.
  destruct (status (lib tr c) =? 0); [|reflexivity].
  fold max_segments.
  destruct (shape0 data <? max_segments); [reflexivity|].
  destruct (shape1 data <? maxSamples self); [reflexivity|].
  apply registration_loop_run.
Qed.

Lemma registrations_app (tr1 tr2 : list call) :
  registrations (tr1 ++ tr2) = registrations tr1 ++ registrations tr2.
Proof. apply filter_app. Qed.

End WithLibrary.

End DriverFacts.

(* ================================================================= *)
(** ** Buffer registration and unit info *)

Module DriverClaims.
Import Py Ctypes Lib PS3000a DriverFacts Examples.
Local Open Scope Z_scope.

(** C5: once the library has reported the number of segments, the helper
    raises [ValueError] exactly when the array has fewer rows than segments
    or fewer columns than [maxSamples]; it has then called the library for
    the number of segments only, and registered no buffer. *)
Theorem lowLevelSetMultipleDataBuffers_shape_check
    (lib : driver) (self : instance) (channel : Z) (data : ndarray)
    (downSampleMode : Z) (tr : list call) :
  let c := ps3000aGetMaxSegments (c_int16 (handle self)) in
  let max_segments := c_int16 (out_value (lib tr c)) in
  let out :=
    _lowLevelSetMultipleDataBuffers lib self channel data downSampleMode tr in
  status (lib tr c) = 0 ->
  (is_ValueError (fst out) = true <->
     shape0 data < max_segments \/ shape1 data < maxSamples self) /\
  (is_ValueError (fst out) = true ->
     snd out = tr ++ [c] /\ registrations (snd out) = registrations tr).
Proof.
  intros c max_segments out Hst. subst out.
  rewrite lowLevelSetMultipleDataBuffers_run. fold c. fold max_segments.
  rewrite Hst. cbn [Z.eqb fst snd].
  split.
  - destruct (Z.ltb_spec (shape0 data) max_segments) as [Hr|Hr].
    { simpl. split; [intros _; left; exact Hr | reflexivity]. }
    destruct (Z.ltb_spec (shape1 data) (maxSamples self)) as [Hc|Hc].
    { simpl. split; [intros _; right; exact Hc | reflexivity]. }
    split.
    + destruct (0 <? max_segments); simpl; discriminate.
    + intros [H|H]; lia.
  - intros _. split; [reflexivity|].
    rewrite registrations_app. simpl. apply app_nil_r.
Qed.

Lemma lowLevelSetMultipleDataBuffers_shape_check_witness :
  is_ValueError
    (fst (_lowLevelSetMultipleDataBuffers four_segment_lib scope 0
            buffer_2x8 0 [])) = true <->
  shape0 buffer_2x8 < 4 \/ shape1 buffer_2x8 < maxSamples scope.
Proof.
  apply (lowLevelSetMultipleDataBuffers_shape_check four_segment_lib scope 0
           buffer_2x8 0 []).
  reflexivity.
Defined.

(** C4 at a unit with two segments and a 2 x 8 array, which passes the
    shape checks: the helper raises [NameError] for the unbound name [ps]
    having registered nothing, where a registration of row 0 for segment 0
    and then of row 1 for segment 1 was due. *)
Theorem lowLevelSetMultipleDataBuffers_registers_nothing :
  let out :=
    _lowLevelSetMultipleDataBuffers two_segment_lib scope 0 buffer_2x8 0 [] in
  out = (Raise (NameError "ps"), [ps3000aGetMaxSegments 1]) /\
  registrations (snd out) = [] /\
  expected_registrations scope 0 buffer_2x8 0 2 =
    [ps3000aSetDataBuffer 1 0 0 8 0 0; ps3000aSetDataBuffer 1 0 1 8 1 0] /\
  lookup "ps" module_globals = None.
Proof. repeat split. Qed.

(** C9 at a unit whose info string needs 300 bytes: the second retrieval
    goes to the entry point [ps3000_get_unit_info], not to
    [ps3000aGetUnitInfo] as the first did, with a buffer of 301 bytes. *)
Theorem lowLevelGetUnitInfo_retry_entry_point
    (utf8_decode : string -> result string) :
  let out := _lowLevelGetUnitInfo long_info_lib utf8_decode scope 3 [] in
  snd out = [ps3000aGetUnitInfo 1 256 3; ps3000_get_unit_info 1 301 3] /\
  List.map entry_point (snd out) =
    ["ps3000aGetUnitInfo"; "ps3000_get_unit_info"]%string /\
  fst out = utf8_decode "PS3000A"%string.
Proof. repeat split. Qed.

End DriverClaims.

(* ================================================================= *)
(** ** Further properties of the timebase conversion *)

Module TimebaseMore.
Import Py Timebase TimebaseFacts TimebaseClaims.
Local Open Scope Q_scope.


Lemma is_floor_log2_below_eight (x : Q) (k : Z) :
  is_floor_log2 x k -> x < 8 -> (k < 3)%Z.
Proof.
  intros [Hk _] Hx.
  assert (H : 2 ^ k < 2 ^ 3) by (apply Qle_lt_trans with x; assumption).
  apply Qpower_lt_compat_l_inv in H; [exact H | reflexivity].
Qed.

Lemma scale_below_eight (s : Q) : s < 8.0e-9 -> s * 1e9 < 8.
Proof.
  intros Hs. apply Qlt_le_trans with (8.0e-9 * 1e9); [|closed_Qle].
  apply Qmult_lt_compat_r; [closed_Qlt | exact Hs].
Qed.

(** Below 8 ns a positive request gets the clamped floor of its logarithm,
    which is less than 3. *)
Lemma below_8ns_code (s : Q) :
  0 < s -> s < 8.0e-9 ->
  exists k, is_floor_log2 (s * 1e9) k /\ (k < 3)%Z /\
            getTimeBaseNum s = Ok (Z.max k 0).
Proof.
  intros H0 Hs.
  destruct (math_floor_log2_spec _ (scale_pos s H0)) as [k [Hk Hspec]].
  exists k. split; [exact Hspec|]. split.
  - exact (is_floor_log2_below_eight _ _ Hspec (scale_below_eight s Hs)).
  - rewrite (getTimeBaseNum_below_8ns s Hs), Hk. reflexivity.
Qed.

Lemma from_8ns_code_bounds (s : Q) :
  8.0e-9 <= s ->
  (3 <= Qfloor (Qmin s maxSampleTime * 125000000 + 2) <= 2 ^ 32 - 1)%Z.
Proof.
  intros Hs. split.
  - rewrite <- (Qfloor_Z 3). apply Qfloor_resp_le.
    apply Qle_trans with (Qmin 8.0e-9 maxSampleTime * 125000000 + 2).
    + closed_Qle.
    + apply Qplus_le_l. apply Qmult_le_compat_r; [|closed_Qle].
      apply Q.min_le_compat_r. exact Hs.
  - rewrite <- (Qfloor_Z (2 ^ 32 - 1)). apply Qfloor_resp_le.
    apply Qle_trans with (maxSampleTime * 125000000 + 2).
    + apply Qplus_le_l. apply Qmult_le_compat_r; [|closed_Qle].
      apply Q.le_min_r.
    + closed_Qle.
Qed.

(** X1: A request that is not positive is refused: the logarithm of the fast
    branch raises. *)
Theorem getTimeBaseNum_nonpositive_raises (s : Q) :
  s <= 0 -> getTimeBaseNum s = Raise (ValueError "math domain error").
Proof.
  intros Hs.
  assert (H8 : s < 8.0e-9) by (apply Qle_lt_trans with 0; [exact Hs | closed_Qlt]).
  rewrite (getTimeBaseNum_below_8ns s H8).
  rewrite math_floor_log2_domain; [reflexivity|].
  rewrite <- (Qmult_0_l 1e9).
  apply Qmult_le_compat_r; [exact Hs | closed_Qle].
Qed.

Lemma getTimeBaseNum_nonpositive_raises_witness :
  getTimeBaseNum (-1) = Raise (ValueError "math domain error").
Proof.
  apply (getTimeBaseNum_nonpositive_raises (-1)). closed_Qle.
Defined.



(** X3: Over all positive requests, in whichever regimes they fall, a larger
    request never gets a smaller code. *)
Theorem codes_monotone_on_positive_requests (s1 s2 : Q) :
  0 < s1 -> s1 <= s2 ->
  exists c1 c2,
    getTimeBaseNum s1 = Ok c1 /\ getTimeBaseNum s2 = Ok c2 /\ (c1 <= c2)%Z.
Proof.
  intros H0 H12.
  assert (H02 : 0 < s2) by (apply Qlt_le_trans with s1; assumption).
  destruct (Qlt_le_dec s2 8.0e-9) as [Hs2|Hs2].
  - assert (Hs1 : s1 < 8.0e-9) by (apply Qle_lt_trans with s2; assumption).
    destruct (below_8ns_code s1 H0 Hs1) as [k1 [S1 [_ ->]]].
    destruct (below_8ns_code s2 H02 Hs2) as [k2 [S2 [_ ->]]].
    do 2 eexists. split; [reflexivity|]. split; [reflexivity|].
    assert (Hk : (k1 <= k2)%Z).
    { apply (is_floor_log2_mono _ _ _ _ S1 S2).
      apply Qmult_le_compat_r; [exact H12 | closed_Qle]. }
    lia.
  - pose proof (from_8ns_code_bounds s2 Hs2) as Hb2.
    rewrite (getTimeBaseNum_from_8ns s2 Hs2).
    destruct (Qlt_le_dec s1 8.0e-9) as [Hs1|Hs1].
    + destruct (below_8ns_code s1 H0 Hs1) as [k1 [_ [Hk1 ->]]].
      do 2 eexists. split; [reflexivity|]. split; [reflexivity|]. lia.
    + rewrite (getTimeBaseNum_from_8ns s1 Hs1).
      do 2 eexists. split; [reflexivity|]. split; [reflexivity|].
      apply Qfloor_resp_le. apply Qplus_le_l.
      apply Qmult_le_compat_r; [|closed_Qle].
      apply Q.min_le_compat_r. exact H12.
Qed.

Lemma codes_monotone_on_positive_requests_witness :
  exists c1 c2,
    getTimeBaseNum 4e-9 = Ok c1 /\ getTimeBaseNum 1e-6 = Ok c2 /\ (c1 <= c2)%Z.
Proof.
  apply (codes_monotone_on_positive_requests 4e-9 1e-6);
    [closed_Qlt | closed_Qle].
Defined.







(** X6: A request at or beyond the longest interval is served with exactly the
    longest interval, [(2^32 - 3) / 125000000] seconds. *)
Theorem getTimeBaseNum_clamped_interval (s : Q) :
  inject_Z (2 ^ 32 - 3) / 125000000 <= s ->
  exists c,
    getTimeBaseNum s = Ok c /\
    getTimestepFromTimebase c == inject_Z (2 ^ 32 - 3) / 125000000.
Proof.
  change (inject_Z (2 ^ 32 - 3) / 125000000) with maxSampleTime.
  intros Hmax.
  assert (Hs : 8.0e-9 <= s) by (apply Qle_trans with maxSampleTime; [closed_Qle | exact Hmax]).
  rewrite (getTimeBaseNum_from_8ns s Hs).
  eexists; split; [reflexivity|].
  rewrite (Qfloor_comp _ (inject_Z (2 ^ 32 - 1))).
  - rewrite Qfloor_Z. closed_Qeq.
  - rewrite (Q.min_r s maxSampleTime Hmax). closed_Qeq.
Qed.

Lemma getTimeBaseNum_clamped_interval_witness :
  exists c,
    getTimeBaseNum 1000 = Ok c /\
    getTimestepFromTimebase c == inject_Z (2 ^ 32 - 3) / 125000000.
Proof.
  apply (getTimeBaseNum_clamped_interval 1000). closed_Qle.
Defined.

End TimebaseMore.

(* ================================================================= *)
(** ** Further properties of buffer registration and unit info *)

Module DriverMore.
Import Py Ctypes Lib PS3000a DriverFacts Examples Examples2.
Local Open Scope Z_scope.

Lemma c_int16_range (z : Z) : - 2 ^ 15 <= c_int16 z < 2 ^ 15.
Proof.
  unfold c_int16.
  pose proof (Z.mod_pos_bound (z + 2 ^ 15) (2 ^ 16) ltac:(lia)). lia.
Qed.

Lemma c_int16_small (z : Z) : - 2 ^ 15 <= z < 2 ^ 15 -> c_int16 z = z.
Proof.
  intros Hz. unfold c_int16. rewrite Z.mod_small; lia.
Qed.

Lemma c_int16_fixes (z : Z) : c_int16 z = z <-> - 2 ^ 15 <= z < 2 ^ 15.
Proof.
  split; [|apply c_int16_small].
  intros <-. apply c_int16_range.
Qed.

(** Every outcome of [_lowLevelGetUnitInfo], without the decoding. *)
Lemma lowLevelGetUnitInfo_run (lib : driver)
    (utf8_decode : string -> result string)
    (self : instance) (info : Z) (tr : list call) :
  let c1 := ps3000aGetUnitInfo (c_int16 (handle self)) (c_int16 256)
              (c_enum info) in
  let r1 := lib tr c1 in
  let requiredSize := c_int16 (out_value r1) in
  let c2 := ps3000_get_unit_info (c_int16 (handle self))
              (c_int16 (requiredSize + 1)) (c_enum info) in
  let r2 := lib (tr ++ [c1]) c2 in
  _lowLevelGetUnitInfo lib utf8_decode self info tr =
  if status r1 =? 0 then
    if 256 <? requiredSize then
      if status r2 =? 0 then
        (utf8_decode (buffer_value (requiredSize + 1) (out_string r2)),
         (tr ++ [c1]) ++ [c2])
      else (Raise (DriverError (PyInt (status r2))), (tr ++ [c1]) ++ [c2])
    else (utf8_decode (buffer_value 256 (out_string r1)), tr ++ [c1])
  else (Raise (DriverError (PyInt (status r1))), tr ++ [c1]).
Proof.
  intros c1 r1 requiredSize c2 r2.
  unfold _lowLevelGetUnitInfo, mbind, lib_call, lift.
  fold c1. fold r1.
  destruct (status r1) as [|p|p] eqn:E1; try reflexivity.
  cbn [checkResult ret Z.eqb]. fold requiredSize.
  destruct (256 <? requiredSize); [|reflexivity].
  fold c2. fold r2.
  destruct (status r2) as [|p|p] eqn:E2; reflexivity.
Qed.

(** X7: Whatever the library answers, [_lowLevelSetMultipleDataBuffers] calls
    it once, for the number of segments, and registers no buffer; it
    returns normally only when that number is not positive. *)
Theorem lowLevelSetMultipleDataBuffers_single_query
    (lib : driver) (self : instance) (channel : Z) (data : ndarray)
    (downSampleMode : Z) (tr : list call) :
  let c := ps3000aGetMaxSegments (c_int16 (handle self)) in
  let max_segments := c_int16 (out_value (lib tr c)) in
  let out :=
    _lowLevelSetMultipleDataBuffers lib self channel data downSampleMode tr in
  snd out = tr ++ [c] /\
  registrations (snd out) = registrations tr /\
  (fst out = Ok tt <->
     status (lib tr c) = 0 /\ max_segments <= shape0 data /\
     maxSamples self <= shape1 data /\ max_segments <= 0).
Proof.
  intros c max_segments out. subst out.
  rewrite lowLevelSetMultipleDataBuffers_run. fold c. fold max_segments.
  cbn [fst snd]. split; [reflexivity|]. split.
  { rewrite registrations_app. simpl. apply app_nil_r. }
  destruct (Z.eqb_spec (status (lib tr c)) 0) as [Hs|Hs].
  2:{ split; [discriminate | intros [H _]; contradiction]. }
  destruct (Z.ltb_spec (shape0 data) max_segments) as [Hr|Hr].
  { split; [discriminate | intros [_ [H _]]; lia]. }
  destruct (Z.ltb_spec (shape1 data) (maxSamples self)) as [Hc|Hc].
  { split; [discriminate | intros [_ [_ [H _]]]; lia]. }
  destruct (Z.ltb_spec 0 max_segments) as [Hn|Hn].
  { split; [discriminate | intros [_ [_ [_ H]]]; lia]. }
  split; [intros _; repeat split; assumption | reflexivity].
Qed.

(** X8: When the query for the number of segments fails, the helper raises
    the driver error with that status, whatever the shape of the array. *)
Theorem lowLevelSetMultipleDataBuffers_driver_error
    (lib : driver) (self : instance) (channel : Z) (data : ndarray)
    (downSampleMode : Z) (tr : list call) :
  let st := status (lib tr (ps3000aGetMaxSegments (c_int16 (handle self)))) in
  st <> 0 ->
  fst (_lowLevelSetMultipleDataBuffers lib self channel data downSampleMode tr)
  = Raise (DriverError (PyInt st)).
Proof.
  intros st Hst. subst st.
  rewrite lowLevelSetMultipleDataBuffers_run. cbn [fst].
  apply Z.eqb_neq in Hst. rewrite Hst. reflexivity.
Qed.

Lemma lowLevelSetMultipleDataBuffers_driver_error_witness :
  fst (_lowLevelSetMultipleDataBuffers failing_lib scope 0 (mkArray 0 0) 0 [])
  = Raise (DriverError (PyInt 5)).
Proof.
  apply (lowLevelSetMultipleDataBuffers_driver_error failing_lib scope 0
           (mkArray 0 0) 0 []).
  discriminate.
Defined.

(** X9: [_lowLevelSetDataBuffer] hands back [None], so a status check on what
    it returns, as in the loop of [_lowLevelSetMultipleDataBuffers], never
    passes: after a successful registration it raises on [None]. *)
Theorem lowLevelSetDataBuffer_result_fails_check
    (lib : driver) (self : instance) (channel : Z) (data : row_view)
    (downSampleMode segmentIndex : Z) (tr : list call) :
  let c := ps3000aSetDataBuffer (c_int16 (handle self)) (c_enum channel)
             (row data) (c_int32 (row_len data)) (c_uint32 segmentIndex)
             (c_enum downSampleMode) in
  let out :=
    (m <- _lowLevelSetDataBuffer lib self channel data downSampleMode
            segmentIndex ;;
     checkResult m) tr in
  snd out = tr ++ [c] /\
  fst out = Raise (DriverError
                     (if status (lib tr c) =? 0 then PyNone
                      else PyInt (status (lib tr c)))).
Proof.
  intros c out. subst out.
  unfold _lowLevelSetDataBuffer, mbind, lib_call. fold c.
  destruct (status (lib tr c)) as [|p|p]; split; reflexivity.
Qed.

(** X10: [_lowLevelGetUnitInfo] calls the library once or twice, never more:
    twice exactly when the first call succeeds and reports a required size
    above 256; a failing first call is raised without a second one. *)
Theorem lowLevelGetUnitInfo_call_count (lib : driver)
    (utf8_decode : string -> result string)
    (self : instance) (info : Z) (tr : list call) :
  let c1 := ps3000aGetUnitInfo (c_int16 (handle self)) 256 (c_enum info) in
  let r1 := lib tr c1 in
  let out := _lowLevelGetUnitInfo lib utf8_decode self info tr in
  (exists rest, snd out = tr ++ c1 :: rest /\ (List.length rest <= 1)%nat /\
     (rest <> [] <-> status r1 = 0 /\ 256 < c_int16 (out_value r1))) /\
  (status r1 <> 0 -> out = (Raise (DriverError (PyInt (status r1))), tr ++ [c1])) /\
  (status r1 = 0 -> c_int16 (out_value r1) <= 256 ->
     out = (utf8_decode (buffer_value 256 (out_string r1)), tr ++ [c1])).
Proof.
  intros c1 r1 out. subst out.
  rewrite lowLevelGetUnitInfo_run.
  change (c_int16 256) with 256. fold c1. fold r1.
  destruct (Z.eqb_spec (status r1) 0) as [Hs|Hs].
  - destruct (Z.ltb_spec 256 (c_int16 (out_value r1))) as [Hr|Hr].
    + split; [|split; [contradiction | lia]].
      eexists [_].
      split.
      { destruct (status (lib (tr ++ [c1]) _) =? 0);
          cbn [snd]; rewrite <- app_assoc; reflexivity. }
      split; [simpl; lia|].
      split; [intros _; split; assumption | discriminate].
    + split; [|split; [contradiction | reflexivity]].
      exists []. split; [reflexivity|]. split; [simpl; lia|].
      split; [contradiction | intros [_ H]; lia].
  - split; [|split; [reflexivity | contradiction]].
    exists []. split; [reflexivity|]. split; [simpl; lia|].
    split; [contradiction | intros [H _]; contradiction].
Qed.

(** X11: On the retry, the size told to the library is the required size plus
    one, except at the largest 16-bit size, where it wraps to [-32768]. *)
Theorem lowLevelGetUnitInfo_retry_length (lib : driver)
    (utf8_decode : string -> result string)
    (self : instance) (info : Z) (tr : list call) :
  let c1 := ps3000aGetUnitInfo (c_int16 (handle self)) 256 (c_enum info) in
  let requiredSize := c_int16 (out_value (lib tr c1)) in
  status (lib tr c1) = 0 -> 256 < requiredSize ->
  snd (_lowLevelGetUnitInfo lib utf8_decode self info tr) =
  tr ++ [c1;
         ps3000_get_unit_info (c_int16 (handle self))
           (if requiredSize <? 32767 then requiredSize + 1 else - 32768)
           (c_enum info)].
Proof.
  intros c1 requiredSize Hs Hr.
  rewrite lowLevelGetUnitInfo_run.
  change (c_int16 256) with 256. fold c1. fold requiredSize.
  rewrite Hs. cbn [Z.eqb].
  apply Z.ltb_lt in Hr. rewrite Hr.
  assert (Hlen : c_int16 (requiredSize + 1) =
                 if requiredSize <? 32767 then requiredSize + 1 else - 32768).
  { pose proof (c_int16_range (out_value (lib tr c1))) as Hb.
    fold requiredSize in Hb. apply Z.ltb_lt in Hr.
    destruct (Z.ltb_spec requiredSize 32767) as [Hlt|Hge].
    - apply c_int16_small. lia.
    - replace requiredSize with 32767 by lia. reflexivity. }
  rewrite Hlen.
  destruct (status (lib (tr ++ [c1]) _) =? 0);
    cbn [snd]; rewrite <- app_assoc; reflexivity.
Qed.

Lemma lowLevelGetUnitInfo_retry_length_witness :
  snd (_lowLevelGetUnitInfo huge_info_lib (fun s => Ok s) scope 3 []) =
  [ps3000aGetUnitInfo 1 256 3; ps3000_get_unit_info 1 (- 32768) 3].
Proof.
  apply (lowLevelGetUnitInfo_retry_length huge_info_lib (fun s => Ok s)
           scope 3 []); reflexivity.
Defined.

End DriverMore.

(* ================================================================= *)
(** ** Properties of the further methods *)

Module MarshalMore.
Import Py Ctypes Lib2 Marshal Examples2.
Import PS3000a(instance, mkInstance, handle, maxSamples).
Import DriverMore(c_int16_range, c_int16_small, c_int16_fixes).
Local Open Scope Z_scope.

Lemma c_uint32_small (z : Z) : 0 <= z <= 2 ^ 32 - 1 -> c_uint32 z = z.
Proof. intros Hz. unfold c_uint32. apply Z.mod_small. lia. Qed.


(** X12: [_lowlevelPingUnit] never answers [False]: it returns [True] when the
    status is zero and raises otherwise, after one library call. *)
Theorem lowlevelPingUnit_never_false
    (lib : driver) (self : instance) (tr : list call) :
  let c := ps3000aPingUnit (c_int16 (handle self)) in
  let out := _lowlevelPingUnit lib self tr in
  fst out <> Ok false /\
  (fst out = Ok true <-> status (lib tr c) = 0) /\
  (fst out = Raise (DriverError (PyInt (status (lib tr c)))) <->
     status (lib tr c) <> 0) /\
  snd out = tr ++ [c].
Proof.
  intros c out. subst out.
  unfold _lowlevelPingUnit, mbind, lib_call. fold c.
  destruct (status (lib tr c)) as [|p|p]; cbn;
    repeat split; intros; try reflexivity; congruence.
Qed.

(** X13: [_lowLevelGetValuesBulk] hands back the sample count it was given,
    whatever the library did, while the library is told that count wrapped
    to 16 bits: the two agree exactly for counts in [-32768, 32767]. *)
Theorem lowLevelGetValuesBulk_sample_count {A : Type}
    (lib : driver) (self : instance)
    (numSamples fromSegment toSegment downSampleRatio downSampleMode : Z)
    (overflow : A) (tr : list call) :
  let told := c_int16 numSamples in
  let c := ps3000aGetValuesBulk (c_int16 (handle self)) told
             (c_int16 fromSegment) (c_int16 toSegment)
             (c_int32 downSampleRatio) (c_int16 downSampleMode) in
  let out := _lowLevelGetValuesBulk lib self numSamples fromSegment toSegment
               downSampleRatio downSampleMode overflow tr in
  status (lib tr c) = 0 ->
  out = (Ok (overflow, numSamples), tr ++ [c]) /\
  (told = numSamples <-> - 32768 <= numSamples <= 32767).
Proof.
  intros told c out Hs. subst out. split.
  - unfold _lowLevelGetValuesBulk, mbind, lib_call. fold told. fold c.
    rewrite Hs. reflexivity.
  - unfold told. rewrite c_int16_fixes.
    change (2 ^ 15) with 32768. lia.
Qed.

Lemma lowLevelGetValuesBulk_sample_count_witness :
  _lowLevelGetValuesBulk ready_lib (mkInstance 1 8) 40000 0 3 1 0 tt [] =
  (Ok (tt, 40000),
   [ps3000aGetValuesBulk 1 (c_int16 40000) 0 3 1 0]).
Proof.
  apply (lowLevelGetValuesBulk_sample_count ready_lib (mkInstance 1 8)
           40000 0 3 1 0 tt []).
  reflexivity.
Defined.


(** X15: The handle stored by a successful [_lowLevelOpenUnit] is a 16-bit
    value, so a later method hands it to the library unchanged: a ping on
    the opened instance carries exactly the stored handle. *)
Theorem lowLevelOpenUnit_handle_marshals
    (lib : driver) (self opened : instance) (sn : option string)
    (tr tr' : list call) :
  fst (_lowLevelOpenUnit lib self sn tr) = Ok opened ->
  - 32768 <= handle opened <= 32767 /\
  maxSamples opened = maxSamples self /\
  snd (_lowlevelPingUnit lib opened tr') =
    tr' ++ [ps3000aPingUnit (handle opened)].
Proof.
  intros Hopen.
  assert (Hh : exists v, handle opened = c_int16 v /\
                         maxSamples opened = maxSamples self).
  { revert Hopen. unfold _lowLevelOpenUnit, mbind, lib_call.
    destruct sn as [s|]; cbn [byref ret raise fst]; [|discriminate].
    destruct (status (lib tr _)) as [|p|p];
      cbn [checkResult ret raise fst]; try discriminate.
    intros H. injection H as <-. eexists. split; reflexivity. }
  destruct Hh as [v [Hv Hm]].
  pose proof (c_int16_range v) as Hr. rewrite <- Hv in Hr.
  change (2 ^ 15) with 32768 in Hr.
  split; [lia|]. split; [exact Hm|].
  unfold _lowlevelPingUnit, mbind, lib_call.
  rewrite (c_int16_small (handle opened)) by (change (2 ^ 15) with 32768; lia).
  destruct (status (lib tr' _)) as [|p|p]; reflexivity.
Qed.

Lemma lowLevelOpenUnit_handle_marshals_witness :
  snd (_lowlevelPingUnit ready_lib (mkInstance 7 8) []) =
  [ps3000aPingUnit 7].
Proof.
  apply (lowLevelOpenUnit_handle_marshals ready_lib (mkInstance 0 8)
           (mkInstance 7 8) (Some "AB123"%string) [] []).
  reflexivity.
Defined.

(** X16: The code [getTimeBaseNum] chooses for a positive request reaches the
    library through [_lowLevelRunBlock] unchanged: it is never wrapped by
    the unsigned 32-bit argument. *)
Theorem getTimeBaseNum_code_reaches_RunBlock (s : Q) :
  (0 < s)%Q ->
  exists code,
    Timebase.getTimeBaseNum s = Ok code /\
    forall (lib : driver) (self : instance)
           (numPreTrigSamples numPostTrigSamples oversample segmentIndex : Z)
           (tr : list call),
      snd (_lowLevelRunBlock lib self numPreTrigSamples numPostTrigSamples
             code oversample segmentIndex tr) =
      tr ++ [ps3000aRunBlock (c_int16 (handle self))
               (c_uint32 numPreTrigSamples) (c_uint32 numPostTrigSamples)
               code (c_int16 oversample) (c_uint16 segmentIndex)].
Proof.
  intros H0.
  assert (Hc : exists code, Timebase.getTimeBaseNum s = Ok code /\
                            0 <= code <= 2 ^ 32 - 1).
  { destruct (Qlt_le_dec s 8.0e-9) as [Hs|Hs].
    - destruct (TimebaseMore.below_8ns_code s H0 Hs) as [k [_ [Hk ->]]].
      eexists; split; [reflexivity | lia].
    - pose proof (TimebaseMore.from_8ns_code_bounds s Hs) as Hb.
      rewrite (TimebaseClaims.getTimeBaseNum_from_8ns s Hs).
      eexists; split; [reflexivity | lia]. }
  destruct Hc as [code [Hcode Hrange]].
  exists code. split; [exact Hcode|].
  intros lib self pre post oversample segmentIndex tr.
  unfold _lowLevelRunBlock, mbind, lib_call.
  rewrite (c_uint32_small code Hrange).
  destruct (status (lib tr _)) as [|p|p]; reflexivity.
Qed.

Lemma getTimeBaseNum_code_reaches_RunBlock_witness :
  exists code, Timebase.getTimeBaseNum 1e-6 = Ok code /\
    forall (lib : driver) (self : instance)
           (numPreTrigSamples numPostTrigSamples oversample segmentIndex : Z)
           (tr : list call),
      snd (_lowLevelRunBlock lib self numPreTrigSamples numPostTrigSamples
             code oversample segmentIndex tr) =
      tr ++ [ps3000aRunBlock (c_int16 (handle self))
               (c_uint32 numPreTrigSamples) (c_uint32 numPostTrigSamples)
               code (c_int16 oversample) (c_uint16 segmentIndex)].
Proof.
  apply (getTimeBaseNum_code_reaches_RunBlock 1e-6). closed_Qlt.
Defined.

End MarshalMore.

(* ================================================================= *)
(** ** The table of voltage ranges *)

Module ConstantsFacts.
Import Constants.
Local Open Scope Q_scope.

Lemma Some_eq {A : Type} (a b : A) : Some a = Some b -> a = b.
Proof. intros H. injection H as H. exact H. Qed.

(** X17: In [CHANNEL_RANGE] the API value of an entry is its position, and the
    ranges grow strictly with the position: the first entry wide enough
    for a voltage is the tightest one. *)
Theorem CHANNEL_RANGE_indexed_and_sorted
    (i j : nat) (ri rj : channel_range) :
  nth_error CHANNEL_RANGE i = Some ri ->
  nth_error CHANNEL_RANGE j = Some rj ->
  apivalue ri = Z.of_nat i /\
  (0 < rangeV ri) /\
  ((i < j)%nat -> rangeV ri < rangeV rj).
Proof.
  intros Hi Hj. unfold CHANNEL_RANGE in Hi, Hj.
  destruct i as [|[|[|[|[|[|[|[|[|[|[|[|i]]]]]]]]]]]];
    cbn [nth_error] in Hi; try (destruct i; discriminate Hi);
    apply Some_eq in Hi; subst ri;
    (split; [reflexivity|]; split; [closed_Qlt|]);
    destruct j as [|[|[|[|[|[|[|[|[|[|[|[|j]]]]]]]]]]]];
    cbn [nth_error] in Hj; try (destruct j; discriminate Hj);
    apply Some_eq in Hj; subst rj;
    intros Hlt; try lia; closed_Qlt.
Qed.

Lemma CHANNEL_RANGE_indexed_and_sorted_witness :
  apivalue (mkRange 50e-3 2 "50 mV") = 2%Z /\
  (0 < 50e-3) /\
  ((2 < 6)%nat -> 50e-3 < 1.0).
Proof.
  apply (CHANNEL_RANGE_indexed_and_sorted 2 6
           (mkRange 50e-3 2 "50 mV") (mkRange 1.0 6 "1 V"));
    reflexivity.
Defined.

End ConstantsFacts.
